(** * FIX log to CSV: a shallow embedding of [Assignment1/fix_to_csv.py]

    The script reads a FIX log line by line, remembers every
    NewOrderSingle (35=D) in a dictionary keyed by ClOrdID (tag 11) and
    writes one CSV row for every ExecutionReport (35=8) that is a full
    fill of a limit order whose NewOrderSingle was seen.  The copy under
    [Assignment 1/] differs from [Assignment1/] in variable names and
    comments only; the definitions below follow [Assignment1/].

    - A Python [str] is a sequence of Unicode code points: [list N].
    - A Python [dict] is a [gmap]; [d.get(k)] is [d !! k].
    - The file object is the list of the raw lines it yields, the
      [csv.writer] is the list of the rows handed to [writerow]. *)

From Stdlib Require Import Ascii String ssreflect.
From stdpp Require Import gmap strings list fin_maps.

(** A string is the list of its code points. *)
Abbreviation str := (list N).

(** String literals of the source, as code points. *)
Definition py (s : string) : str :=
  (λ a, N_of_ascii a) <$> list_ascii_of_string s.

(** ** The built-in string methods the script calls *)
Module Py.

(** [str.isspace] on one code point: the characters [str.strip()] and
    [str.split()] treat as whitespace. *)
Definition isspace (c : N) : bool :=
  ((0x09 <=? c) && (c <=? 0x0D) || (0x1C <=? c) && (c <=? 0x20)
   || (c =? 0x85) || (c =? 0xA0) || (c =? 0x1680)
   || (0x2000 <=? c) && (c <=? 0x200A)
   || (c =? 0x2028) || (c =? 0x2029) || (c =? 0x202F)
   || (c =? 0x205F) || (c =? 0x3000))%N.

(** [s.lstrip(chars)], [s.rstrip(chars)]: [p] tells the stripped
    characters. *)
Fixpoint lstrip_with (p : N → bool) (s : str) : str :=
  match s with
  | [] => []
  | c :: s' => if p c then lstrip_with p s' else s
  end.

Definition rstrip_with (p : N → bool) (s : str) : str :=
  reverse (lstrip_with p (reverse s)).

(** [s.strip()] *)
Definition strip (s : str) : str :=
  rstrip_with isspace (lstrip_with isspace s).

(** Cut [s] at every character satisfying [p]; empty pieces are kept. *)
Fixpoint split_by (p : N → bool) (s : str) : list str :=
  match s with
  | [] => [[]]
  | c :: s' =>
      if p c then [] :: split_by p s'
      else match split_by p s' with
           | t :: ts => (c :: t) :: ts
           | [] => [[c]]
           end
  end.

(** [s.split(sep)] for a separator of one character. *)
Definition split (sep : N) (s : str) : list str :=
  split_by (N.eqb sep) s.

(** [s.split()]: the maximal runs of characters that are not
    whitespace. *)
Definition split_whitespace (s : str) : list str :=
  filter (λ t, t ≠ []) (split_by isspace s).

(** [s.split(sep, 1)] unpacked into two names, for [s] containing [sep]:
    the text before the first [sep] and the text after it. *)
Fixpoint split_once (sep : N) (s : str) : str * str :=
  match s with
  | [] => ([], [])
  | c :: s' =>
      if (c =? sep)%N then ([], s')
      else let '(a, b) := split_once sep s' in (c :: a, b)
  end.

(** [sep.join(parts)] for a separator of one character. *)
Fixpoint join (sep : N) (parts : list str) : str :=
  match parts with
  | [] => []
  | [t] => t
  | t :: ts => t ++ sep :: join sep ts
  end.

(** [a or b] on strings: [a] unless it is empty. *)
Definition or_else (a b : str) : str :=
  match a with [] => b | _ => a end.

(** [d.get(k, '')] *)
Definition get_or_empty (d : gmap str str) (k : str) : str :=
  default [] (d !! k).

End Py.

(** ** [split_fix_message] *)

(** Code points of the characters the script names. *)
Definition SOH : N := 0x01.
Definition PIPE : N := 0x7C.
Definition EQUALS : N := 0x3D.
Definition NEWLINE : N := 0x0A.

(** [SOH_CHARS = ['\x01', '\u0001', '|']]: both escapes denote U+0001. *)
Definition SOH_CHARS : list N := [SOH; SOH; PIPE].

(** The [for soh_char in SOH_CHARS] loop with its [break]. *)
Fixpoint detect_separator (candidates : list N) (line : str) : option N :=
  match candidates with
  | [] => None
  | soh_char :: rest =>
      if bool_decide (soh_char ∈ line) then Some soh_char
      else detect_separator rest line
  end.

(** [parts], the raw tokens of a line. *)
Definition tokenize (line : str) : list str :=
  match detect_separator SOH_CHARS line with
  | None => Py.split_whitespace (Py.strip line)
  | Some separator => Py.split separator (Py.strip line)
  end.

(** One turn of the [for part in parts] loop. *)
Definition decode_part (fields : gmap str str) (part : str) : gmap str str :=
  if bool_decide (part = []) then fields
  else if bool_decide (EQUALS ∉ part) then fields
  else let '(tag, value) := Py.split_once EQUALS part in
       <[tag := value]> fields.

Definition decode_fields (parts : list str) : gmap str str :=
  foldl decode_part ∅ parts.

Definition split_fix_message (line : str) : gmap str str :=
  decode_fields (tokenize line).

(** ** [process_fix_file] *)

Definition csv_header : list str :=
  [ py "OrderID"; py "OrderTransactTime"; py "ExecutionTransactTime";
    py "Symbol"; py "Side"; py "OrderQty"; py "LimitPrice"; py "AvgPx";
    py "LastMkt" ].

(** What the loop carries from one line to the next: the [orders]
    dictionary and the rows given to [writer.writerow] so far. *)
Record state := State {
  orders : gmap str (gmap str str);
  written : list (list str)
}.

Definition writerow (st : state) (row : list str) : state :=
  {| orders := orders st; written := written st ++ [row] |}.

(** The dictionary stored under [orders[cl_ord_id]]. *)
Definition order_fields (cl_ord_id : str) (message : gmap str str)
  : gmap str str :=
  <[py "11" := cl_ord_id]>
  (<[py "60" := Py.get_or_empty message (py "60")]>
  (<[py "55" := Py.get_or_empty message (py "55")]>
  (<[py "54" := Py.get_or_empty message (py "54")]>
  (<[py "38" := Py.get_or_empty message (py "38")]>
  (<[py "44" := Py.get_or_empty message (py "44")]> ∅))))).

(** Branch [msg_type == 'D']. *)
Definition new_order_single (st : state) (message : gmap str str) : state :=
  match message !! py "11" with
  | None => st
  | Some cl_ord_id =>
      if bool_decide (cl_ord_id = []) then st
      else {| orders := <[cl_ord_id := order_fields cl_ord_id message]> (orders st);
              written := written st |}
  end.

(** The list given to [writer.writerow] for a matched fill. *)
Definition fill_row (cl_ord_id : str) (order message : gmap str str)
  : list str :=
  [ cl_ord_id;
    Py.get_or_empty order (py "60");
    Py.get_or_empty message (py "60");
    Py.or_else (Py.get_or_empty order (py "55")) (Py.get_or_empty message (py "55"));
    Py.or_else (Py.get_or_empty order (py "54")) (Py.get_or_empty message (py "54"));
    Py.or_else (Py.get_or_empty order (py "38")) (Py.get_or_empty message (py "38"));
    Py.or_else (Py.get_or_empty order (py "44")) (Py.get_or_empty message (py "44"));
    Py.get_or_empty message (py "6");
    Py.get_or_empty message (py "30") ].

(** Branch [msg_type == '8']. *)
Definition execution_report (st : state) (message : gmap str str) : state :=
  if bool_decide (message !! py "150" ≠ Some (py "2"))
     || bool_decide (message !! py "39" ≠ Some (py "2"))
     || bool_decide (message !! py "40" ≠ Some (py "2"))
  then st
  else
    match message !! py "11" with
    | None => st
    | Some cl_ord_id =>
        if bool_decide (cl_ord_id = []) then st
        else
          match orders st !! cl_ord_id with
          | None => st
          | Some order =>
              if bool_decide (order = ∅) then st
              else writerow st (fill_row cl_ord_id order message)
          end
    end.

(** The dispatch on [msg_type = message.get('35')]. *)
Definition process_message (st : state) (message : gmap str str) : state :=
  match message !! py "35" with
  | None => st
  | Some msg_type =>
      if bool_decide (msg_type = py "D") then new_order_single st message
      else if bool_decide (msg_type = py "8") then execution_report st message
      else st
  end.

(** The body of [for line_number, raw_line in enumerate(input_file)]. *)
Definition process_line (st : state) (raw_line : str) : state :=
  let line := Py.rstrip_with (N.eqb NEWLINE) raw_line in
  if bool_decide (line = []) then st
  else process_message st (split_fix_message line).

Definition run (st : state) (input_file : list str) : state :=
  foldl process_line st input_file.

(** The state when the loop is entered: no order, the header written. *)
Definition start : state :=
  writerow {| orders := ∅; written := [] |} csv_header.

(** [process_fix_file], from the lines of the input file to the rows of
    the output file. *)
Definition process_fix_file (input_file : list str) : list (list str) :=
  written (run start input_file).

(** ** Vocabulary of the statements *)

(** The message the loop body decodes from a raw line. *)
Definition message_of (raw_line : str) : gmap str str :=
  split_fix_message (Py.rstrip_with (N.eqb NEWLINE) raw_line).

(** An ExecutionReport that is a full fill of a limit order. *)
Definition qualifying (message : gmap str str) : Prop :=
  message !! py "35" = Some (py "8")
  ∧ message !! py "150" = Some (py "2")
  ∧ message !! py "39" = Some (py "2")
  ∧ message !! py "40" = Some (py "2").

(** A NewOrderSingle carrying the correlation identifier [k]. *)
Definition new_order_for (k : str) (message : gmap str str) : Prop :=
  message !! py "35" = Some (py "D") ∧ message !! py "11" = Some k ∧ k ≠ [].

(** A qualifying ExecutionReport carrying the correlation identifier [k]. *)
Definition execution_for (k : str) (message : gmap str str) : Prop :=
  qualifying message ∧ message !! py "11" = Some k ∧ k ≠ [].

(** Line number [i] (from 0) of the stream has [row] written. *)
Definition emits_at (input_file : list str) (i : nat) (row : list str) : Prop :=
  ∃ raw_line, input_file !! i = Some raw_line
    ∧ written (process_line (run start (take i input_file)) raw_line)
      = written (run start (take i input_file)) ++ [row].

(** A line of [tag=value] fields, each closed by U+0001. *)
Definition soh_line (parts : list string) : str :=
  concat ((λ p, py p ++ [SOH]) <$> parts).

(** The two lines of the end-to-end example of the specification, and
    the row it expects. *)
Definition sample_order : str :=
  soh_line ["35=D"; "11=A1"; "60=20240102-09:30:00.000"; "55=XYZ"; "54=1";
            "38=100"; "44=10.50"] ++ [NEWLINE].

Definition sample_fill : str :=
  soh_line ["35=8"; "11=A1"; "60=20240102-09:30:01.500"; "150=2"; "39=2";
            "40=2"; "6=10.40"; "30=NASD"] ++ [NEWLINE].

Definition sample_row : list str :=
  [ py "A1"; py "20240102-09:30:00.000"; py "20240102-09:30:01.500";
    py "XYZ"; py "1"; py "100"; py "10.50"; py "10.40"; py "NASD" ].

(** The claim of C2 read to the letter: the raw line itself is what is
    split on the selected separator. *)
Definition splits_raw_line (line : str) : Prop :=
  (SOH ∈ line → tokenize line = Py.split SOH line)
  ∧ (SOH ∉ line → PIPE ∈ line → tokenize line = Py.split PIPE line)
  ∧ (SOH ∉ line → PIPE ∉ line → tokenize line = Py.split_whitespace line).

(** A cell is the value of [tag] in [d], the empty string without one. *)
Definition taken_from (d : gmap str str) (tag cell : str) : Prop :=
  match d !! tag with
  | Some value => cell = value
  | None => cell = []
  end.

(** A cell is the value [order] has for [tag] when that is not empty, and
    otherwise taken from [message]. *)
Definition prefers (order message : gmap str str) (tag cell : str) : Prop :=
  match order !! tag with
  | Some (c :: value) => cell = c :: value
  | _ => taken_from message tag cell
  end.

(** The claim of C1 read to the letter: after line [i] had a row written
    for the identifier [k], a later qualifying execution report for [k]
    has none written, as long as no new order for [k] came in between. *)
Definition first_fill_wins (input_file : list str) : Prop :=
  ∀ i j k row raw_line,
    i < j →
    emits_at input_file i row → row !! 0 = Some k →
    input_file !! j = Some raw_line →
    execution_for k (message_of raw_line) →
    (∀ n new_line, i < n < j → input_file !! n = Some new_line →
       ¬ new_order_for k (message_of new_line)) →
    ∀ row', ¬ emits_at input_file j row'.

#[global] Instance qualifying_dec message : Decision (qualifying message).
Proof. rw /qualifying. apply _. Defined.

#[global] Instance new_order_for_dec k message :
  Decision (new_order_for k message).
Proof. rw /new_order_for. apply _. Defined.

(** *** The correlator in the words of the specification *)

(** The PendingOrder held for [k] after the lines [seen]: the fields
    captured from the last new-order message for [k] among them. *)
Definition spec_pending (seen : list str) (k : str) : option (gmap str str) :=
  order_fields k <$>
    last (filter (new_order_for k) (message_of <$> seen)).

(** The MatchedFill of a line read after the lines [seen]: the join of a
    qualifying execution report with the PendingOrder of its correlation
    identifier. *)
Definition spec_matched_fill (seen : list str) (raw_line : str)
  : option (list str) :=
  let message := message_of raw_line in
  if bool_decide (qualifying message) then
    k ← message !! py "11";
    order ← spec_pending seen k;
    Some (fill_row k order message)
  else None.

(** The MatchedFill of line number [i] (from 0) of a stream, if any. *)
Definition spec_fill_at (input_file : list str) (i : nat)
  : option (list str) :=
  raw_line ← input_file !! i;
  spec_matched_fill (take i input_file) raw_line.

(** *** Vocabulary of the further properties *)

Definition SPACE : N := 0x20.

(** The line that spells [fields] as [tag=value], each closed by [sep]. *)
Definition encode_fields (sep : N) (fields : list (str * str)) : str :=
  concat ((λ f, f.1 ++ EQUALS :: f.2 ++ [sep]) <$> fields).

(** The mapping a reader of [fields] expects: a later field replaces an
    earlier one with the same tag. *)
Definition fields_map (fields : list (str * str)) : gmap str str :=
  list_to_map (reverse fields).

(** No whitespace at the start of [s]. *)
Definition no_leading_space (s : str) : Prop :=
  Py.lstrip_with Py.isspace s = s.

(** A line the correlator has no use for: neither a new order with an
    identifier nor a qualifying execution report with one. *)
Definition inert (raw_line : str) : Prop :=
  (∀ k, ¬ new_order_for k (message_of raw_line))
  ∧ (∀ k, ¬ execution_for k (message_of raw_line)).

(** A line that carries the identifier [k] in field 11. *)
Definition concerns (k : str) (raw_line : str) : Prop :=
  message_of raw_line !! py "11" = Some k.

#[global] Instance concerns_dec k raw_line : Decision (concerns k raw_line).
Proof. rw /concerns. apply _. Defined.

(** The rows after the header. *)
Definition data_rows (input_file : list str) : list (list str) :=
  drop 1 (process_fix_file input_file).

(** The six keys of a stored order. *)
Definition order_keys : gset str :=
  {[ py "11"; py "60"; py "55"; py "54"; py "38"; py "44" ]}.

(** Closed decidable facts, such as ['|' ∈ line] for a literal [line], are
    settled by evaluation. *)
Ltac by_evaluation := apply (bool_decide_unpack _); vm_compute; exact I.

(** ** The built-in string methods *)
Section py_lemmas.
Context (p : N → bool).

Lemma lstrip_with_decomp (s : str) :
  ∃ ws, s = ws ++ Py.lstrip_with p s ∧ Forall (λ c, p c = true) ws.
Proof.
  induction s as [|c s [ws [Hs Hws]]]; simpl.
  - by exists [].
  - destruct (p c) eqn:Hc.
    + exists (c :: ws). split; [by rw /= -Hs | by constructor].
    + by exists [].
Qed.

Lemma rstrip_with_decomp (s : str) :
  ∃ ws, s = Py.rstrip_with p s ++ ws ∧ Forall (λ c, p c = true) ws.
Proof.
  destruct (lstrip_with_decomp (reverse s)) as [ws [Hs Hws]].
  exists (reverse ws). split.
  - rw /Py.rstrip_with -reverse_app -Hs. by rw reverse_involutive.
  - by apply Forall_reverse.
Qed.

Lemma split_by_not_nil (s : str) : Py.split_by p s ≠ [].
Proof.
  destruct s as [|c s]; simpl; [done|].
  destruct (p c); [done|]. by destruct (Py.split_by p s).
Qed.

Lemma split_by_snoc (s : str) c :
  p c = true → Py.split_by p (s ++ [c]) = Py.split_by p s ++ [[]].
Proof.
  intros Hc. induction s as [|d s IH]; simpl.
  - by rw Hc.
  - rw IH. destruct (p d); [done|].
    pose proof (split_by_not_nil s). by destruct (Py.split_by p s).
Qed.

Lemma split_by_free (s : str) :
  Forall (λ t, Forall (λ c, p c = false) t) (Py.split_by p s).
Proof.
  induction s as [|c s IH]; simpl.
  - by repeat constructor.
  - destruct (p c) eqn:Hc.
    + by constructor.
    + destruct (Py.split_by p s) as [|t ts]; [by repeat constructor|].
      inversion IH; subst. constructor; [by constructor | done].
Qed.

Lemma filter_split_by_lstrip (s : str) :
  filter (λ t, t ≠ []) (Py.split_by p (Py.lstrip_with p s))
  = filter (λ t, t ≠ []) (Py.split_by p s).
Proof.
  induction s as [|c s IH]; simpl; [done|].
  destruct (p c) eqn:Hc; simpl; [|by rw Hc].
  rw filter_cons_False; [by intros H; apply H | done].
Qed.

Lemma filter_split_by_blank_tail (s ws : str) :
  Forall (λ c, p c = true) ws →
  filter (λ t, t ≠ []) (Py.split_by p (s ++ ws))
  = filter (λ t, t ≠ []) (Py.split_by p s).
Proof.
  revert s. induction ws as [|c ws IH] using rev_ind; intros s Hws.
  - by rw app_nil_r.
  - apply Forall_app in Hws as [Hws Hc]. inversion Hc; subst.
    rw app_assoc split_by_snoc; [done|].
    rw filter_app IH; [done|].
    rw filter_cons_False; [by intros H; apply H|].
    by rw filter_nil app_nil_r.
Qed.

End py_lemmas.

Lemma join_split (sep : N) (s : str) : Py.join sep (Py.split sep s) = s.
Proof.
  rw /Py.split. induction s as [|c s IH]; simpl; [done|].
  pose proof (split_by_not_nil (N.eqb sep) s) as Hne.
  destruct (N.eqb_spec sep c) as [->|Hc].
  - destruct (Py.split_by _ s) as [|t ts]; [done|]. by rw -IH.
  - destruct (Py.split_by _ s) as [|t ts]; [done|].
    destruct ts as [|t' ts]; simpl in *; by rw -IH.
Qed.

Lemma split_free (sep : N) (s : str) : Forall (λ t, sep ∉ t) (Py.split sep s).
Proof.
  eapply Forall_impl; [apply split_by_free|]. simpl.
  intros t Ht Hin. rewrite -> Forall_forall in Ht.
  specialize (Ht _ Hin). by rw N.eqb_refl in Ht.
Qed.

Lemma split_whitespace_tokens (s : str) :
  Forall (λ t, t ≠ [] ∧ Forall (λ c, Py.isspace c = false) t)
         (Py.split_whitespace s).
Proof.
  rw /Py.split_whitespace. apply Forall_forall. intros t Ht.
  apply list_elem_of_filter in Ht as [Hne Ht]. split; [done|].
  pose proof (split_by_free Py.isspace s) as Hfree.
  rewrite -> Forall_forall in Hfree. by apply Hfree.
Qed.

Lemma split_whitespace_strip (s : str) :
  Py.split_whitespace (Py.strip s) = Py.split_whitespace s.
Proof.
  rw /Py.split_whitespace /Py.strip.
  destruct (rstrip_with_decomp Py.isspace (Py.lstrip_with Py.isspace s))
    as [ws [Hs Hws]].
  rw -(filter_split_by_lstrip Py.isspace s).
  rewrite -> Hs at 2. by rw filter_split_by_blank_tail.
Qed.

Lemma split_once_at (sep : N) (tag value : str) :
  sep ∉ tag → Py.split_once sep (tag ++ sep :: value) = (tag, value).
Proof.
  induction tag as [|c tag IH]; simpl; intros Hsep.
  - by rw N.eqb_refl.
  - apply not_elem_of_cons in Hsep as [Hc Htag].
    destruct (N.eqb_spec c sep) as [->|_]; [done|]. by rw IH.
Qed.

Lemma split_once_elem_of (sep : N) (s : str) :
  sep ∈ s →
  ∃ tag value, s = tag ++ sep :: value ∧ (sep ∉ tag)
               ∧ Py.split_once sep s = (tag, value).
Proof.
  induction s as [|c s IH]; [by intros ?%elem_of_nil|].
  destruct (decide (c = sep)) as [->|Hc]; intros Hin.
  - exists [], s. split_and!; [done|apply not_elem_of_nil|].
    by rw /= N.eqb_refl.
  - apply elem_of_cons in Hin as [->|Hin]; [done|].
    destruct (IH Hin) as (tag & value & -> & Htag & Hsplit).
    exists (c :: tag), value. split_and!; [done| |].
    + apply not_elem_of_cons. split; [congruence|done].
    + apply (split_once_at sep (c :: tag) value).
      apply not_elem_of_cons. split; [congruence|done].
Qed.

(** ** The tokenizer *)

Lemma detect_separator_soh (line : str) :
  SOH ∈ line → detect_separator SOH_CHARS line = Some SOH.
Proof. intros H. by rw /= bool_decide_eq_true_2. Qed.

Lemma detect_separator_pipe (line : str) :
  SOH ∉ line → PIPE ∈ line → detect_separator SOH_CHARS line = Some PIPE.
Proof.
  intros Hs Hp. rw /= !(bool_decide_eq_false_2 (SOH ∈ line)); [done..|].
  by rw bool_decide_eq_true_2.
Qed.

Lemma detect_separator_none (line : str) :
  SOH ∉ line → PIPE ∉ line → detect_separator SOH_CHARS line = None.
Proof.
  intros Hs Hp. rw /= !(bool_decide_eq_false_2 (SOH ∈ line)); [done..|].
  by rw bool_decide_eq_false_2.
Qed.

Lemma tokenize_whitespace (line : str) :
  SOH ∉ line → PIPE ∉ line → tokenize line = Py.split_whitespace line.
Proof.
  intros Hs Hp. rw /tokenize detect_separator_none; [done..|].
  apply split_whitespace_strip.
Qed.

(** What the tokens are: with a separator, the pieces of the stripped line
    between its occurrences; without one, non-empty runs free of
    whitespace. *)
Lemma tokenize_pieces (line : str) (separator : N) :
  detect_separator SOH_CHARS line = Some separator →
  Py.join separator (tokenize line) = Py.strip line
  ∧ Forall (λ t, separator ∉ t) (tokenize line).
Proof.
  intros Hsep. rw /tokenize Hsep. split; [apply join_split|apply split_free].
Qed.

Lemma tokenize_runs (line : str) :
  detect_separator SOH_CHARS line = None →
  Forall (λ t, t ≠ [] ∧ Forall (λ c, Py.isspace c = false) t) (tokenize line).
Proof. intros Hsep. rw /tokenize Hsep. apply split_whitespace_tokens. Qed.

(** C2, as amended: the separator is the first of U+0001, U+0001 (its
    second spelling) and '|' that occurs anywhere in the line, whatever
    the number of occurrences of the others, and what is split on it is
    the line with its leading and trailing whitespace removed; without any
    candidate in the line, the tokens are the runs of non-whitespace
    characters of the line. *)
Theorem tokenize_separator_priority (line : str) :
  (SOH ∈ line → tokenize line = Py.split SOH (Py.strip line))
  ∧ (SOH ∉ line → PIPE ∈ line → tokenize line = Py.split PIPE (Py.strip line))
  ∧ (SOH ∉ line → PIPE ∉ line → tokenize line = Py.split_whitespace line).
Proof.
  rw /tokenize. split_and!.
  - intros H. by rw detect_separator_soh.
  - intros Hs Hp. by rw detect_separator_pipe.
  - apply tokenize_whitespace.
Qed.

Lemma tokenize_separator_priority_witness :
  tokenize (py "A|B|C" ++ [SOH] ++ py "D")
  = Py.split SOH (Py.strip (py "A|B|C" ++ [SOH] ++ py "D")).
Proof.
  apply (proj1 (tokenize_separator_priority (py "A|B|C" ++ [SOH] ++ py "D"))).
  by_evaluation.
Defined.

(** C2 as stated fails on a line that starts with a blank: the tokens are
    those of the stripped line. *)
Lemma splits_raw_line_counterexample :
  tokenize (py " A=1|B=2") = [py "A=1"; py "B=2"]
  ∧ Py.split PIPE (py " A=1|B=2") = [py " A=1"; py "B=2"]
  ∧ split_fix_message (py " A=1|B=2") !! py "A" = Some (py "1")
  ∧ decode_fields (Py.split PIPE (py " A=1|B=2")) !! py "A" = None
  ∧ ¬ splits_raw_line (py " A=1|B=2").
Proof.
  split_and!; [by vm_compute..|].
  intros (_ & Hpipe & _).
  specialize (Hpipe ltac:(by_evaluation) ltac:(by_evaluation)).
  by vm_compute in Hpipe.
Qed.

(** ** The decoder *)

Lemma decode_fields_snoc (parts : list str) (part : str) :
  decode_fields (parts ++ [part]) = decode_part (decode_fields parts) part.
Proof. by rw /decode_fields foldl_app. Qed.

Lemma decode_part_no_equals (fields : gmap str str) (part : str) :
  EQUALS ∉ part → decode_part fields part = fields.
Proof.
  intros H. rw /decode_part. case_bool_decide; [done|].
  by rw bool_decide_eq_true_2.
Qed.

Lemma decode_part_pair (fields : gmap str str) (tag value : str) :
  EQUALS ∉ tag →
  decode_part fields (tag ++ EQUALS :: value) = <[tag := value]> fields.
Proof.
  intros H. rw /decode_part.
  rw bool_decide_eq_false_2; [by destruct tag|].
  rw bool_decide_eq_false_2; [|by rw split_once_at].
  intros Hn. apply Hn. apply elem_of_app. right. by left.
Qed.

Lemma decode_fields_no_equals (parts : list str) :
  Forall (λ t, EQUALS ∉ t) parts → decode_fields parts = ∅.
Proof.
  induction parts as [|part parts IH] using rev_ind; [done|].
  intros [Hparts Hpart]%Forall_app. inversion Hpart; subst.
  rw decode_fields_snoc decode_part_no_equals; [done|]. by apply IH.
Qed.

(** C3: a token with '=' reads [tag=value] in one way with [tag] free of
    '=', and is stored as [tag] to [value] (so [value] may hold further
    '=' and [tag] is any string, the empty one included); a token without
    '=' and the empty token leave the mapping as it is; a line without
    U+0001 and '|' whose whitespace tokens carry no '=' decodes to the
    empty mapping. *)
Theorem decode_fields_tokens :
  (∀ part, EQUALS ∈ part →
     ∃ tag value, part = tag ++ EQUALS :: value ∧ (EQUALS ∉ tag))
  ∧ (∀ parts tag value, EQUALS ∉ tag →
     decode_fields (parts ++ [tag ++ EQUALS :: value])
     = <[tag := value]> (decode_fields parts))
  ∧ (∀ parts part, EQUALS ∉ part →
       decode_fields (parts ++ [part]) = decode_fields parts)
  ∧ (∀ parts, decode_fields (parts ++ [[]]) = decode_fields parts)
  ∧ (∀ line, SOH ∉ line → PIPE ∉ line →
       Forall (λ t, EQUALS ∉ t) (Py.split_whitespace line) →
       split_fix_message line = ∅).
Proof.
  split_and!.
  - intros part (tag & value & ? & ? & _)%split_once_elem_of.
    by exists tag, value.
  - intros parts tag value H. by rw decode_fields_snoc decode_part_pair.
  - intros parts part H. by rw decode_fields_snoc decode_part_no_equals.
  - intros parts. rw decode_fields_snoc decode_part_no_equals; [|done].
    apply not_elem_of_nil.
  - intros line Hs Hp Hno. rw /split_fix_message.
    rw tokenize_whitespace; [done..|]. by apply decode_fields_no_equals.
Qed.

Lemma decode_fields_tokens_witness :
  decode_fields ([py "35=D"] ++ [py "k" ++ EQUALS :: py "a=b"])
  = <[py "k" := py "a=b"]> (decode_fields [py "35=D"])
  ∧ decode_fields ([py "35=D"] ++ [py "noise"]) = decode_fields [py "35=D"]
  ∧ split_fix_message (py "  hello   world ") = ∅.
Proof.
  destruct decode_fields_tokens as (_ & H1 & H2 & _ & H4). split_and!.
  - apply H1. by_evaluation.
  - apply H2. by_evaluation.
  - apply H4; [by_evaluation..|].
    by_evaluation.
Defined.

(** C9: the lines [A=1\x01B=2\x01] and [A=1|B=2|] decode to the same
    mapping, [{A: 1, B: 2}]. *)
Theorem separator_independence :
  split_fix_message (py "A=1" ++ [SOH] ++ py "B=2" ++ [SOH])
  = split_fix_message (py "A=1|B=2|")
  ∧ split_fix_message (py "A=1|B=2|")
    = <[py "B" := py "2"]> (<[py "A" := py "1"]> ∅).
Proof. split; by vm_compute. Qed.

(** ** The correlator, one message at a time *)

Lemma msg_type_8_not_D : py "8" ≠ py "D".
Proof. by vm_compute. Qed.

Lemma split_fix_message_nil : split_fix_message [] = ∅.
Proof. by vm_compute. Qed.

Lemma process_line_message (st : state) (raw_line : str) :
  process_line st raw_line = process_message st (message_of raw_line).
Proof.
  rw /process_line /message_of. case_bool_decide as Hline; [|done].
  by rw Hline split_fix_message_nil /process_message lookup_empty.
Qed.

Lemma order_fields_not_empty (k : str) (message : gmap str str) :
  order_fields k message ≠ ∅.
Proof. apply insert_non_empty. Qed.

Lemma orders_execution_report (st : state) (message : gmap str str) :
  orders (execution_report st message) = orders st.
Proof. rw /execution_report. by repeat case_match. Qed.

Lemma written_new_order_single (st : state) (message : gmap str str) :
  written (new_order_single st message) = written st.
Proof. rw /new_order_single. by repeat case_match. Qed.

Lemma process_message_new_order (st : state) (message : gmap str str) k :
  new_order_for k message →
  process_message st message
  = {| orders := <[k := order_fields k message]> (orders st);
       written := written st |}.
Proof.
  intros (Ht & Hk & Hne).
  rw /process_message Ht bool_decide_eq_true_2; [done|].
  by rw /new_order_single Hk bool_decide_eq_false_2.
Qed.

Lemma orders_process_message_other (st : state) (message : gmap str str) k :
  ¬ new_order_for k message →
  orders (process_message st message) !! k = orders st !! k.
Proof.
  intros Hnew. rw /process_message.
  destruct (message !! py "35") as [msg_type|] eqn:Ht; [|done].
  case_bool_decide as HD.
  - subst msg_type. rw /new_order_single.
    destruct (message !! py "11") as [k'|] eqn:Hk'; [|done].
    case_bool_decide as Hempty; [done|]. simpl.
    rw lookup_insert_ne; [|done]. intros ->. by apply Hnew.
  - case_bool_decide; [|done]. by rw orders_execution_report.
Qed.

Lemma process_message_execution (st : state) (message : gmap str str) k :
  execution_for k message →
  process_message st message
  = match orders st !! k with
    | Some order =>
        if bool_decide (order = ∅) then st
        else writerow st (fill_row k order message)
    | None => st
    end.
Proof.
  intros ((Ht & H150 & H39 & H40) & Hk & Hne).
  rw /process_message Ht bool_decide_eq_false_2; [apply msg_type_8_not_D|].
  rw bool_decide_eq_true_2; [done|].
  rw /execution_report H150 H39 H40 Hk.
  rw (bool_decide_eq_false_2 (Some (py "2") ≠ Some (py "2"))); [by intros H|].
  by rw /= (bool_decide_eq_false_2 (k = [])).
Qed.

Lemma written_process_message_unqualified (st : state) (message : gmap str str) :
  ¬ qualifying message → written (process_message st message) = written st.
Proof.
  intros Hq. rw /process_message.
  destruct (message !! py "35") as [msg_type|] eqn:Ht; [|done].
  case_bool_decide; [by apply written_new_order_single|].
  case_bool_decide as H8; [subst msg_type|done].
  rw /execution_report.
  destruct (decide (message !! py "150" = Some (py "2"))) as [H150|H150];
    [|by rw (bool_decide_eq_true_2 _ H150)].
  destruct (decide (message !! py "39" = Some (py "2"))) as [H39|H39];
    [|by rw (bool_decide_eq_true_2 _ H39) orb_true_r].
  destruct (decide (message !! py "40" = Some (py "2"))) as [H40|H40];
    [|by rw (bool_decide_eq_true_2 _ H40) orb_true_r].
  by destruct Hq.
Qed.

Lemma process_message_no_identifier (st : state) (message : gmap str str) :
  message !! py "11" = None ∨ message !! py "11" = Some [] →
  process_message st message = st.
Proof.
  intros Hk. rw /process_message /new_order_single /execution_report.
  destruct Hk as [-> | ->]; by repeat case_match.
Qed.

(** ** The correlator along a stream *)

Lemma run_snoc (st : state) (seen : list str) (raw_line : str) :
  run st (seen ++ [raw_line]) = process_line (run st seen) raw_line.
Proof. by rw /run foldl_app. Qed.

Lemma spec_pending_snoc_new (seen : list str) (raw_line k : str) :
  new_order_for k (message_of raw_line) →
  spec_pending (seen ++ [raw_line]) k
  = Some (order_fields k (message_of raw_line)).
Proof.
  intros Hnew. rw /spec_pending fmap_app filter_app /=.
  rw filter_cons_True; [done|]. by rw filter_nil last_snoc.
Qed.

Lemma spec_pending_snoc_other (seen : list str) (raw_line k : str) :
  ¬ new_order_for k (message_of raw_line) →
  spec_pending (seen ++ [raw_line]) k = spec_pending seen k.
Proof.
  intros Hnew. rw /spec_pending fmap_app filter_app /=.
  rw filter_cons_False; [done|]. by rw filter_nil app_nil_r.
Qed.

Lemma spec_pending_app_other (seen rest : list str) (k : str) :
  Forall (λ raw_line, ¬ new_order_for k (message_of raw_line)) rest →
  spec_pending (seen ++ rest) k = spec_pending seen k.
Proof.
  induction rest as [|raw_line rest IH] using rev_ind; intros Hrest.
  - by rw app_nil_r.
  - apply Forall_app in Hrest as [Hrest Hlast]. inversion Hlast; subst.
    rw app_assoc spec_pending_snoc_other; [done|]. by apply IH.
Qed.

Lemma spec_pending_origin (seen : list str) (k : str) (order : gmap str str) :
  spec_pending seen k = Some order →
  ∃ j raw_line, seen !! j = Some raw_line
    ∧ new_order_for k (message_of raw_line)
    ∧ order = order_fields k (message_of raw_line).
Proof.
  rw /spec_pending. intros (message & Hlast & ->)%fmap_Some.
  apply last_Some_elem_of, list_elem_of_filter in Hlast as [Hnew Hin].
  apply list_elem_of_fmap in Hin as (raw_line & -> & Hin).
  apply list_elem_of_lookup in Hin as [j Hj]. by exists j, raw_line.
Qed.

(** The dictionary [orders] holds, under every identifier, what the
    specification calls its PendingOrder. *)
Lemma orders_run (seen : list str) (k : str) :
  orders (run start seen) !! k = spec_pending seen k.
Proof.
  induction seen as [|raw_line seen IH] using rev_ind; [done|].
  rw run_snoc process_line_message.
  destruct (decide (new_order_for k (message_of raw_line))) as [Hnew|Hnew].
  - rw (process_message_new_order _ _ k Hnew) /= lookup_insert_eq.
    by rw spec_pending_snoc_new.
  - rw orders_process_message_other; [done|].
    by rw spec_pending_snoc_other.
Qed.

(** One line writes the row of its MatchedFill and nothing else. *)
Lemma written_process_line (seen : list str) (raw_line : str) :
  written (process_line (run start seen) raw_line)
  = written (run start seen) ++ option_list (spec_matched_fill seen raw_line).
Proof.
  rw process_line_message /spec_matched_fill. case_bool_decide as Hq.
  - destruct (message_of raw_line !! py "11") as [k|] eqn:Hk; simpl;
      [|by rw process_message_no_identifier; [left|rw app_nil_r]].
    destruct (spec_pending seen k) as [order|] eqn:Horder; simpl.
    + destruct (spec_pending_origin _ _ _ Horder)
        as (j & new_line & _ & (_ & _ & Hne) & ->).
      rw (process_message_execution _ _ k); [done|].
      rw orders_run Horder bool_decide_eq_false_2; [|done].
      apply order_fields_not_empty.
    + rw app_nil_r. destruct (decide (k = [])) as [->|Hne].
      * rw process_message_no_identifier; [by right|done].
      * rw (process_message_execution _ _ k); [done|].
        by rw orders_run Horder.
  - by rw written_process_message_unqualified; [|rw app_nil_r].
Qed.

Lemma omap_ext_elem_of {A B} (f g : A → option B) (l : list A) :
  (∀ x, x ∈ l → f x = g x) → omap f l = omap g l.
Proof.
  induction l as [|x l IH]; intros Hfg; [done|]. csimpl.
  rw (Hfg x); [by left|]. rw IH; [|done].
  intros y Hy. apply Hfg. by right.
Qed.

Lemma spec_fill_at_app_lt (input_file rest : list str) (i : nat) :
  i < length input_file →
  spec_fill_at (input_file ++ rest) i = spec_fill_at input_file i.
Proof.
  intros Hi. rw /spec_fill_at lookup_app_l; [done|].
  by rw take_app_le; [lia|].
Qed.

Lemma spec_fill_at_app_length (seen rest : list str) (raw_line : str) :
  spec_fill_at (seen ++ raw_line :: rest) (length seen)
  = spec_matched_fill seen raw_line.
Proof.
  rw /spec_fill_at list_lookup_middle; [done|]. by rw /= take_app_length.
Qed.

(** C7: the output is the header, of the nine names in their order, and
    after it the MatchedFill rows of the lines in the order of the lines;
    without any MatchedFill the output is the header alone. *)
Theorem header_then_matched_fills (input_file : list str) :
  csv_header
  = [ py "OrderID"; py "OrderTransactTime"; py "ExecutionTransactTime";
      py "Symbol"; py "Side"; py "OrderQty"; py "LimitPrice"; py "AvgPx";
      py "LastMkt" ]
  ∧ process_fix_file input_file
    = csv_header
      :: omap (spec_fill_at input_file) (seq 0 (length input_file))
  ∧ ((∀ i, spec_fill_at input_file i = None) →
     process_fix_file input_file = [csv_header]).
Proof.
  assert (Hrows : process_fix_file input_file
    = csv_header
      :: omap (spec_fill_at input_file) (seq 0 (length input_file))).
  { rw /process_fix_file.
    induction input_file as [|raw_line seen IH] using rev_ind; [done|].
    rw run_snoc written_process_line IH length_app /= Nat.add_1_r seq_S /=.
    rw omap_app /=. f_equal. f_equal.
    - apply omap_ext_elem_of. intros i [_ Hi]%elem_of_seq.
      by rw spec_fill_at_app_lt; [lia|].
    - by rw spec_fill_at_app_length. }
  split_and!; [done..|].
  intros Hnone. rw Hrows. f_equal. clear Hrows.
  induction (seq 0 (length input_file)) as [|i l IH]; [done|].
  csimpl. by rw Hnone.
Qed.

Lemma header_then_matched_fills_witness :
  process_fix_file [soh_line ["35=D"; "11=A1"]; soh_line ["35=8"; "11=A1"; "150=1"]]
  = [csv_header].
Proof.
  apply (proj2 (proj2 (header_then_matched_fills _))).
  intros [|[|i]]; by vm_compute.
Defined.

Lemma emits_at_spec (input_file : list str) (i : nat) (row : list str) :
  emits_at input_file i row ↔ spec_fill_at input_file i = Some row.
Proof.
  rw /emits_at /spec_fill_at. split.
  - intros (raw_line & -> & Hrow). simpl.
    rw written_process_line in Hrow. apply app_inv_head in Hrow.
    by destruct (spec_matched_fill _ raw_line); simplify_eq/=.
  - destruct (input_file !! i) as [raw_line|]; [simpl|done].
    intros Hfill. exists raw_line. split; [done|].
    by rw written_process_line Hfill.
Qed.

Lemma spec_matched_fill_Some (seen : list str) (raw_line : str) row :
  spec_matched_fill seen raw_line = Some row ↔
  ∃ k order, qualifying (message_of raw_line)
    ∧ message_of raw_line !! py "11" = Some k
    ∧ spec_pending seen k = Some order
    ∧ row = fill_row k order (message_of raw_line).
Proof.
  rw /spec_matched_fill. split.
  - case_bool_decide as Hq; [|done].
    destruct (message_of raw_line !! py "11") as [k|] eqn:Hk; [simpl|done].
    destruct (spec_pending seen k) as [order|] eqn:Horder; [simpl|done].
    intros [= <-]. by exists k, order.
  - intros (k & order & Hq & Hk & Horder & ->).
    by rw bool_decide_eq_true_2 // Hk /= Horder.
Qed.

Lemma execution_not_new_order (k k' : str) (message : gmap str str) :
  execution_for k message → ¬ new_order_for k' message.
Proof.
  intros ((Ht & _) & _) (Ht' & _). rw Ht in Ht'.
  apply msg_type_8_not_D. congruence.
Qed.

(** C8: a row written at line [i] carries an identifier [k] that a
    new-order message on an earlier line [j] brought; and a qualifying
    execution report whose identifier is not in [orders] leaves the state
    as it is: no row, no error. *)
Theorem fill_needs_earlier_new_order :
  (∀ input_file i row, emits_at input_file i row →
     ∃ k j new_line, row !! 0 = Some k ∧ j < i
       ∧ input_file !! j = Some new_line
       ∧ new_order_for k (message_of new_line))
  ∧ (∀ st raw_line k, execution_for k (message_of raw_line) →
       orders st !! k = None → process_line st raw_line = st).
Proof.
  split.
  - intros input_file i row Hrow%emits_at_spec. rw /spec_fill_at in Hrow.
    destruct (input_file !! i) as [raw_line|]; [simpl in Hrow|done].
    apply spec_matched_fill_Some in Hrow as (k & order & _ & _ & Horder & ->).
    apply spec_pending_origin in Horder as (j & new_line & Hj & Hnew & _).
    apply lookup_take_Some in Hj as [Hj Hlt]. by exists k, j, new_line.
  - intros st raw_line k Hexec Hnone.
    by rw process_line_message (process_message_execution _ _ k) // Hnone.
Qed.

Example end_to_end :
  process_fix_file [sample_order; sample_fill] = [csv_header; sample_row].
Proof. by vm_compute. Qed.

Lemma sample_fill_execution : execution_for (py "A1") (message_of sample_fill).
Proof. by vm_compute. Qed.

Lemma fill_needs_earlier_new_order_witness :
  (∃ k j new_line, sample_row !! 0 = Some k ∧ j < 1
     ∧ [sample_order; sample_fill] !! j = Some new_line
     ∧ new_order_for k (message_of new_line))
  ∧ process_line start sample_fill = start.
Proof.
  destruct fill_needs_earlier_new_order as [Hrow Hdrop]. split.
  - apply Hrow. exists sample_fill. by vm_compute.
  - apply (Hdrop start sample_fill (py "A1")); by vm_compute.
Defined.

(** C1 as stated fails: the order of the first line is matched by the
    second line and again by the third. *)
Lemma first_fill_wins_counterexample :
  process_fix_file [sample_order; sample_fill; sample_fill]
  = [csv_header; sample_row; sample_row]
  ∧ ¬ first_fill_wins [sample_order; sample_fill; sample_fill].
Proof.
  split; [by vm_compute|]. intros Hwins.
  apply (Hwins 1 2 (py "A1") sample_row sample_fill) with (row' := sample_row).
  - lia.
  - exists sample_fill. by vm_compute.
  - done.
  - done.
  - apply sample_fill_execution.
  - intros n new_line Hn. lia.
  - exists sample_fill. by vm_compute.
Qed.

(** C1, as amended: a match leaves the PendingOrder in [orders].  With the
    order [order] pending for [k], a qualifying execution report for [k]
    and a later one, no new order for [k] between them, each have a row
    written from that same [order], which is still pending afterwards. *)
Theorem matched_order_is_reused
    (seen mid : list str) (e1 e2 k : str) (order : gmap str str) :
  orders (run start seen) !! k = Some order →
  execution_for k (message_of e1) →
  execution_for k (message_of e2) →
  Forall (λ raw_line, ¬ new_order_for k (message_of raw_line)) mid →
  let input_file := seen ++ [e1] ++ mid ++ [e2] in
  emits_at input_file (length seen) (fill_row k order (message_of e1))
  ∧ emits_at input_file (length (seen ++ [e1] ++ mid))
             (fill_row k order (message_of e2))
  ∧ orders (run start input_file) !! k = Some order.
Proof.
  intros Horder He1 He2 Hmid input_file. rw orders_run in Horder.
  assert (Hkept : spec_pending (seen ++ [e1] ++ mid) k = Some order).
  { rw spec_pending_app_other; [|done].
    constructor; [|done]. by eapply execution_not_new_order. }
  split_and!.
  - apply emits_at_spec. rw /input_file spec_fill_at_app_length.
    apply spec_matched_fill_Some. exists k, order.
    by destruct He1 as (? & ? & ?).
  - apply emits_at_spec. rw /input_file !app_assoc.
    rw spec_fill_at_app_length -!app_assoc.
    apply spec_matched_fill_Some. exists k, order.
    by destruct He2 as (? & ? & ?).
  - rw orders_run /input_file.
    replace (seen ++ [e1] ++ mid ++ [e2]) with ((seen ++ [e1] ++ mid) ++ [e2])
      by (by rw -!app_assoc).
    rw spec_pending_snoc_other; [|done].
    by eapply execution_not_new_order.
Qed.

Lemma matched_order_is_reused_witness :
  let input_file := [sample_order] ++ [sample_fill] ++ [] ++ [sample_fill] in
  emits_at input_file 1 sample_row
  ∧ emits_at input_file 2 sample_row
  ∧ orders (run start input_file) !! py "A1"
    = Some (order_fields (py "A1") (message_of sample_order)).
Proof.
  apply (matched_order_is_reused [sample_order] [] sample_fill sample_fill
           (py "A1") (order_fields (py "A1") (message_of sample_order))).
  - by vm_compute.
  - apply sample_fill_execution.
  - apply sample_fill_execution.
  - constructor.
Defined.

(** C4: for a decoded message of type '8', failing any of 150 = '2',
    39 = '2', 40 = '2' leaves the state as it is (the same [orders], no
    row; the model has no other outcome such as an error), so a row is
    written only if all three hold. *)
Theorem disqualified_execution_report (st : state) (message : gmap str str) :
  message !! py "35" = Some (py "8") →
  (message !! py "150" ≠ Some (py "2")
   ∨ message !! py "39" ≠ Some (py "2")
   ∨ message !! py "40" ≠ Some (py "2") →
   process_message st message = st)
  ∧ (written (process_message st message) ≠ written st →
     message !! py "150" = Some (py "2")
     ∧ message !! py "39" = Some (py "2")
     ∧ message !! py "40" = Some (py "2")).
Proof.
  intros Ht.
  assert (Hdrop : message !! py "150" ≠ Some (py "2")
                  ∨ message !! py "39" ≠ Some (py "2")
                  ∨ message !! py "40" ≠ Some (py "2") →
                  process_message st message = st).
  { intros Hfail.
    rw /process_message Ht bool_decide_eq_false_2; [apply msg_type_8_not_D|].
    rw bool_decide_eq_true_2; [done|]. rw /execution_report.
    destruct Hfail as [H|[H|H]]; rw (bool_decide_eq_true_2 _ H);
      by rw ?orb_true_r. }
  split; [done|]. intros Hrow.
  destruct (decide (message !! py "150" = Some (py "2"))) as [H150|H150];
    [|by rw Hdrop in Hrow; [left|]].
  destruct (decide (message !! py "39" = Some (py "2"))) as [H39|H39];
    [|by rw Hdrop in Hrow; [right; left|]].
  destruct (decide (message !! py "40" = Some (py "2"))) as [H40|H40];
    [done|by rw Hdrop in Hrow; [right; right|]].
Qed.

Lemma disqualified_execution_report_witness :
  process_message start
    (split_fix_message (soh_line ["35=8"; "11=A1"; "150=1"; "39=2"; "40=2"]))
  = start.
Proof.
  apply (proj1 (disqualified_execution_report start
    (split_fix_message (soh_line ["35=8"; "11=A1"; "150=1"; "39=2"; "40=2"]))
    ltac:(by vm_compute))).
  left. by vm_compute.
Defined.

Lemma get_order_fields (k tag : str) (message : gmap str str) :
  tag ∈ [py "60"; py "55"; py "54"; py "38"; py "44"] →
  Py.get_or_empty (order_fields k message) tag = Py.get_or_empty message tag.
Proof.
  rw /order_fields /Py.get_or_empty. intros Htag.
  repeat (apply elem_of_cons in Htag as [->|Htag];
          [repeat (rw lookup_insert_ne; [by vm_compute|]);
           by rw lookup_insert_eq|]).
  by apply elem_of_nil in Htag.
Qed.

(** The row of a fill against the fields captured from [order_message]. *)
Lemma fill_row_order_fields (k : str) (order_message message : gmap str str) :
  fill_row k (order_fields k order_message) message
  = [ k;
      Py.get_or_empty order_message (py "60");
      Py.get_or_empty message (py "60");
      Py.or_else (Py.get_or_empty order_message (py "55"))
                 (Py.get_or_empty message (py "55"));
      Py.or_else (Py.get_or_empty order_message (py "54"))
                 (Py.get_or_empty message (py "54"));
      Py.or_else (Py.get_or_empty order_message (py "38"))
                 (Py.get_or_empty message (py "38"));
      Py.or_else (Py.get_or_empty order_message (py "44"))
                 (Py.get_or_empty message (py "44"));
      Py.get_or_empty message (py "6");
      Py.get_or_empty message (py "30") ].
Proof.
  rw /fill_row !get_order_fields; try done.
  all: by_evaluation.
Qed.

(** C5: of two new-order messages for [k] the second one is what [orders]
    holds for [k] afterwards, whatever came before it; the row of the next
    qualifying execution report for [k] has the second message's
    timestamp, symbol, side, quantity and limit price (or, where the
    second message has none, the execution report's) and nothing of the
    first; and directly after one another the two leave the very state the
    second alone leaves. *)
Theorem last_new_order_wins (seen mid rest : list str) (d1 d2 e k : str) :
  new_order_for k (message_of d1) →
  new_order_for k (message_of d2) →
  Forall (λ raw_line, ¬ new_order_for k (message_of raw_line)) rest →
  execution_for k (message_of e) →
  let stored := seen ++ [d1] ++ mid ++ [d2] in
  orders (run start stored) !! k = Some (order_fields k (message_of d2))
  ∧ emits_at (stored ++ rest ++ [e]) (length (stored ++ rest))
      [ k;
        Py.get_or_empty (message_of d2) (py "60");
        Py.get_or_empty (message_of e) (py "60");
        Py.or_else (Py.get_or_empty (message_of d2) (py "55"))
                   (Py.get_or_empty (message_of e) (py "55"));
        Py.or_else (Py.get_or_empty (message_of d2) (py "54"))
                   (Py.get_or_empty (message_of e) (py "54"));
        Py.or_else (Py.get_or_empty (message_of d2) (py "38"))
                   (Py.get_or_empty (message_of e) (py "38"));
        Py.or_else (Py.get_or_empty (message_of d2) (py "44"))
                   (Py.get_or_empty (message_of e) (py "44"));
        Py.get_or_empty (message_of e) (py "6");
        Py.get_or_empty (message_of e) (py "30") ]
  ∧ (∀ st, process_line (process_line st d1) d2 = process_line st d2).
Proof.
  intros Hd1 Hd2 Hrest He stored.
  assert (Hstored : spec_pending stored k
                    = Some (order_fields k (message_of d2))).
  { rw /stored. replace (seen ++ [d1] ++ mid ++ [d2])
      with ((seen ++ [d1] ++ mid) ++ [d2]) by (by rw -!app_assoc).
    by apply spec_pending_snoc_new. }
  split_and!.
  - by rw orders_run.
  - apply emits_at_spec. rw app_assoc spec_fill_at_app_length.
    apply spec_matched_fill_Some.
    exists k, (order_fields k (message_of d2)).
    destruct He as (Hq & Hk & _). split_and!; [done..| |].
    + by rw spec_pending_app_other.
    + by rw fill_row_order_fields.
  - intros st. rw !process_line_message.
    rw !(process_message_new_order _ _ k) //=. by rw insert_insert_eq.
Qed.

Lemma last_new_order_wins_witness :
  let d1 := soh_line ["35=D"; "11=A1"; "60=t1"; "55=OLD"; "54=1"; "38=100"; "44=9"] in
  let d2 := soh_line ["35=D"; "11=A1"; "60=t2"; "55=NEW"; "38=200"] in
  let e := soh_line ["35=8"; "11=A1"; "60=t3"; "150=2"; "39=2"; "40=2"; "54=2"; "6=8"] in
  orders (run start [d1; d2]) !! py "A1"
  = Some (order_fields (py "A1") (message_of d2))
  ∧ emits_at [d1; d2; e] 2
      [ py "A1"; py "t2"; py "t3"; py "NEW"; py "2"; py "200"; []; py "8"; [] ]
  ∧ (∀ st, process_line (process_line st d1) d2 = process_line st d2).
Proof.
  intros d1 d2 e.
  apply (last_new_order_wins [] [] [] d1 d2 e (py "A1"));
    [by vm_compute|by vm_compute|constructor|by vm_compute].
Defined.

Lemma taken_from_get (d : gmap str str) (tag : str) :
  taken_from d tag (Py.get_or_empty d tag).
Proof. rw /taken_from /Py.get_or_empty. by destruct (d !! tag). Qed.

Lemma prefers_or_else (order message : gmap str str) (tag : str) :
  prefers order message tag
    (Py.or_else (Py.get_or_empty order tag) (Py.get_or_empty message tag)).
Proof.
  rw /prefers /Py.or_else /Py.get_or_empty.
  destruct (order !! tag) as [[|c value]|]; simpl;
    [apply taken_from_get|done|apply taken_from_get].
Qed.

Lemma process_message_writes (st : state) (message : gmap str str) row :
  written (process_message st message) = written st ++ [row] →
  ∃ k order, qualifying message ∧ message !! py "11" = Some k
    ∧ orders st !! k = Some order ∧ row = fill_row k order message.
Proof.
  assert (Hsame : written st ≠ written st ++ [row]).
  { intros H%(f_equal length). rw length_app /= in H. lia. }
  destruct (decide (qualifying message)) as [Hq|Hq];
    [|by rw written_process_message_unqualified].
  destruct (message !! py "11") as [k|] eqn:Hk;
    [|by rw process_message_no_identifier; [left|]].
  destruct (decide (k = [])) as [->|Hne];
    [by rw process_message_no_identifier; [right|]|].
  rw (process_message_execution _ _ k); [done|].
  destruct (orders st !! k) as [order|] eqn:Horder; [|done].
  case_bool_decide; [done|]. simpl.
  intros [= <-]%app_inv_head. by exists k, order.
Qed.

(** C6: a written row is the identifier, then the order's timestamp, the
    execution report's timestamp, then symbol, side, quantity and limit
    price, each the order's value when the order has a non-empty one and
    else the execution report's, then the execution report's average price
    and last market; what is taken from a message that lacks it is the
    empty string. *)
Theorem matched_row_cells (st : state) (raw_line : str) (row : list str) :
  written (process_line st raw_line) = written st ++ [row] →
  ∃ k order order_time execution_time symbol side qty price avg_px last_mkt,
    row = [ k; order_time; execution_time; symbol; side; qty; price;
            avg_px; last_mkt ]
    ∧ message_of raw_line !! py "11" = Some k
    ∧ orders st !! k = Some order
    ∧ taken_from order (py "60") order_time
    ∧ taken_from (message_of raw_line) (py "60") execution_time
    ∧ prefers order (message_of raw_line) (py "55") symbol
    ∧ prefers order (message_of raw_line) (py "54") side
    ∧ prefers order (message_of raw_line) (py "38") qty
    ∧ prefers order (message_of raw_line) (py "44") price
    ∧ taken_from (message_of raw_line) (py "6") avg_px
    ∧ taken_from (message_of raw_line) (py "30") last_mkt.
Proof.
  rw process_line_message.
  intros (k & order & _ & Hk & Horder & ->)%process_message_writes.
  do 10 eexists. split; [reflexivity|].
  split_and!; try done; apply taken_from_get || apply prefers_or_else.
Qed.

Lemma matched_row_cells_witness :
  ∃ k order order_time execution_time symbol side qty price avg_px last_mkt,
    sample_row = [ k; order_time; execution_time; symbol; side; qty; price;
                   avg_px; last_mkt ]
    ∧ message_of sample_fill !! py "11" = Some k
    ∧ orders (run start [sample_order]) !! k = Some order
    ∧ taken_from order (py "60") order_time
    ∧ taken_from (message_of sample_fill) (py "60") execution_time
    ∧ prefers order (message_of sample_fill) (py "55") symbol
    ∧ prefers order (message_of sample_fill) (py "54") side
    ∧ prefers order (message_of sample_fill) (py "38") qty
    ∧ prefers order (message_of sample_fill) (py "44") price
    ∧ taken_from (message_of sample_fill) (py "6") avg_px
    ∧ taken_from (message_of sample_fill) (py "30") last_mkt.
Proof.
  apply (matched_row_cells (run start [sample_order]) sample_fill sample_row).
  by vm_compute.
Defined.

(** C10: a message whose field 11 is the empty string is handled as the
    same message without field 11, whatever its type; a new-order message
    with an empty field 11 stores nothing and a qualifying execution
    report with an empty field 11 has no row written: both leave the
    state as it is. *)
Theorem empty_identifier_as_absent (st : state) (message : gmap str str) :
  process_message st (<[py "11" := []]> message)
  = process_message st (delete (py "11") message)
  ∧ (message !! py "35" = Some (py "D") → message !! py "11" = Some [] →
     process_message st message = st)
  ∧ (qualifying message → message !! py "11" = Some [] →
     process_message st message = st).
Proof.
  split_and!.
  - rw (process_message_no_identifier _ (<[_:=_]> _));
      [right; apply lookup_insert_eq|].
    by rw process_message_no_identifier; [left; apply lookup_delete_eq|].
  - intros _ Hk. rw process_message_no_identifier; [by right|done].
  - intros _ Hk. rw process_message_no_identifier; [by right|done].
Qed.

Lemma empty_identifier_as_absent_witness :
  process_message start (split_fix_message (soh_line ["35=D"; "11="; "55=XYZ"]))
  = start
  ∧ process_message (run start [sample_order])
      (split_fix_message (soh_line ["35=8"; "11="; "150=2"; "39=2"; "40=2"]))
    = run start [sample_order].
Proof.
  split.
  - apply (proj1 (proj2 (empty_identifier_as_absent start _))); by vm_compute.
  - apply (proj2 (proj2 (empty_identifier_as_absent _ _))); by vm_compute.
Defined.

(** * Further properties of the two functions *)

(** ** Whitespace around a line *)

Section strip_lemmas.
Context (p : N → bool).

Lemma lstrip_with_blank (ws : str) :
  Forall (λ c, p c = true) ws → Py.lstrip_with p ws = [].
Proof. induction 1 as [|c ws Hc _ IH]; [done|]. by rw /= Hc. Qed.

Lemma lstrip_with_app_blank (ws s : str) :
  Forall (λ c, p c = true) ws → Py.lstrip_with p (ws ++ s) = Py.lstrip_with p s.
Proof. induction 1 as [|c ws Hc _ IH]; [done|]. by rw /= Hc. Qed.

Lemma rstrip_with_app_blank (s ws : str) :
  Forall (λ c, p c = true) ws → Py.rstrip_with p (s ++ ws) = Py.rstrip_with p s.
Proof.
  intros Hws. rw /Py.rstrip_with reverse_app lstrip_with_app_blank; [|done].
  by apply Forall_reverse.
Qed.

Lemma rstrip_with_blank (ws : str) :
  Forall (λ c, p c = true) ws → Py.rstrip_with p ws = [].
Proof.
  intros Hws. rw /Py.rstrip_with lstrip_with_blank; [|done].
  by apply Forall_reverse.
Qed.

Lemma rstrip_lstrip_app_blank (s ws : str) :
  Forall (λ c, p c = true) ws →
  Py.rstrip_with p (Py.lstrip_with p (s ++ ws))
  = Py.rstrip_with p (Py.lstrip_with p s).
Proof.
  intros Hws. induction s as [|c s IH]; simpl.
  - by rw lstrip_with_blank.
  - destruct (p c); [done|]. by rw (rstrip_with_app_blank (c :: s)).
Qed.

End strip_lemmas.

Lemma strip_surrounding (ws1 s ws2 : str) :
  Forall (λ c, Py.isspace c = true) ws1 →
  Forall (λ c, Py.isspace c = true) ws2 →
  Py.strip (ws1 ++ s ++ ws2) = Py.strip s.
Proof.
  intros H1 H2. rw /Py.strip lstrip_with_app_blank; [done|].
  by apply rstrip_lstrip_app_blank.
Qed.

Lemma not_space_not_elem_of (c : N) (ws : str) :
  Py.isspace c = false → Forall (λ c, Py.isspace c = true) ws → c ∉ ws.
Proof.
  intros Hc Hws Hin. rewrite -> Forall_forall in Hws.
  specialize (Hws _ Hin). congruence.
Qed.

Lemma elem_of_padded (c : N) (ws1 s ws2 : str) :
  Py.isspace c = false →
  Forall (λ c, Py.isspace c = true) ws1 →
  Forall (λ c, Py.isspace c = true) ws2 →
  c ∈ ws1 ++ s ++ ws2 ↔ c ∈ s.
Proof.
  intros Hc H1 H2. rw !elem_of_app.
  pose proof (not_space_not_elem_of c ws1 Hc H1).
  pose proof (not_space_not_elem_of c ws2 Hc H2). tauto.
Qed.

Lemma detect_separator_ext (line1 line2 : str) :
  (SOH ∈ line1 ↔ SOH ∈ line2) → (PIPE ∈ line1 ↔ PIPE ∈ line2) →
  detect_separator SOH_CHARS line1 = detect_separator SOH_CHARS line2.
Proof.
  intros Hs Hp. rw /=.
  by rw (bool_decide_ext _ _ Hs) (bool_decide_ext _ _ Hp).
Qed.

Lemma split_fix_message_padded (ws1 line ws2 : str) :
  Forall (λ c, Py.isspace c = true) ws1 →
  Forall (λ c, Py.isspace c = true) ws2 →
  split_fix_message (ws1 ++ line ++ ws2) = split_fix_message line.
Proof.
  intros H1 H2. rw /split_fix_message /tokenize.
  rw (detect_separator_ext (ws1 ++ line ++ ws2) line).
  - by apply elem_of_padded.
  - by apply elem_of_padded.
  - by rw strip_surrounding.
Qed.

(** X1: whitespace before and after a line does not change what the line
    decodes to. *)
Theorem split_fix_message_padding (ws1 line ws2 : str) :
  Forall (λ c, Py.isspace c = true) ws1 →
  Forall (λ c, Py.isspace c = true) ws2 →
  split_fix_message (ws1 ++ line ++ ws2) = split_fix_message line.
Proof. apply split_fix_message_padded. Qed.

Lemma split_fix_message_padding_witness :
  split_fix_message (py "  " ++ py "35=D|11=A1" ++ py " ")
  = split_fix_message (py "35=D|11=A1").
Proof.
  apply split_fix_message_padding; by repeat constructor.
Defined.

Lemma newline_is_space (c : N) : N.eqb NEWLINE c = true → Py.isspace c = true.
Proof. by intros <-%N.eqb_eq. Qed.

(** The [rstrip] of the loop body does not show in the decoded message:
    [strip] removes the newlines as well. *)
Lemma message_of_raw_line (raw_line : str) :
  message_of raw_line = split_fix_message raw_line.
Proof.
  rw /message_of.
  destruct (rstrip_with_decomp (N.eqb NEWLINE) raw_line) as (nls & Hraw & Hnls).
  rewrite -> Hraw at 2.
  rw -(split_fix_message_padded [] _ nls); [done| |done].
  eapply Forall_impl; [exact Hnls|]. apply newline_is_space.
Qed.

(** X2: the loop body does the same for a raw line with whitespace before
    or after it, such as the newline that the last line of a file may
    lack, a carriage return or an indentation. *)
Theorem process_line_padding (st : state) (ws1 raw_line ws2 : str) :
  Forall (λ c, Py.isspace c = true) ws1 →
  Forall (λ c, Py.isspace c = true) ws2 →
  process_line st (ws1 ++ raw_line ++ ws2) = process_line st raw_line.
Proof.
  intros H1 H2. rw !process_line_message !message_of_raw_line.
  by rw split_fix_message_padded.
Qed.

Lemma process_line_padding_witness :
  process_line start (py " " ++ py "35=D|11=A1" ++ [0x0D; NEWLINE]%N)
  = process_line start (py "35=D|11=A1").
Proof. apply process_line_padding; by repeat constructor. Defined.

(** ** The decoded mapping and the tokens *)

Lemma decode_fields_lookup_Some (parts : list str) (tag value : str) :
  decode_fields parts !! tag = Some value →
  tag ++ EQUALS :: value ∈ parts ∧ (EQUALS ∉ tag).
Proof.
  induction parts as [|part parts IH] using rev_ind; [done|].
  rw decode_fields_snoc.
  destruct (decide (EQUALS ∈ part)) as [Hin|Hin].
  - destruct (split_once_elem_of _ _ Hin) as (t & v & -> & Ht & _).
    rw decode_part_pair; [done|].
    destruct (decide (t = tag)) as [->|Hne].
    + rw lookup_insert_eq. intros [= ->].
      split; [|done]. apply elem_of_app. right. by left.
    + rw lookup_insert_ne; [done|]. intros [? ?]%IH.
      split; [|done]. apply elem_of_app. by left.
  - rw decode_part_no_equals; [done|]. intros [? ?]%IH.
    split; [|done]. apply elem_of_app. by left.
Qed.

Lemma decode_fields_lookup_is_Some (parts : list str) (tag value : str) :
  EQUALS ∉ tag → tag ++ EQUALS :: value ∈ parts →
  is_Some (decode_fields parts !! tag).
Proof.
  intros Htag. induction parts as [|part parts IH] using rev_ind;
    [by intros ?%elem_of_nil|].
  rw decode_fields_snoc. intros [Hin| <-%list_elem_of_singleton]%elem_of_app.
  - destruct (decide (EQUALS ∈ part)) as [Heq|Heq].
    + destruct (split_once_elem_of _ _ Heq) as (t & v & -> & Ht & _).
      rw decode_part_pair; [done|].
      destruct (decide (t = tag)) as [->|Hne].
      * rw lookup_insert_eq. by eexists.
      * rw lookup_insert_ne; [done|]. by apply IH.
    + rw decode_part_no_equals; [done|]. by apply IH.
  - rw decode_part_pair; [done|]. rw lookup_insert_eq. by eexists.
Qed.

(** X3: every entry of the decoded mapping is a token [tag=value] of the
    line, cut at the first '='; and every token of that form leaves an
    entry for its tag (with the value of the last such token). *)
Theorem split_fix_message_entries (line tag value : str) :
  (split_fix_message line !! tag = Some value →
   tag ++ EQUALS :: value ∈ tokenize line ∧ (EQUALS ∉ tag))
  ∧ (EQUALS ∉ tag → tag ++ EQUALS :: value ∈ tokenize line →
     is_Some (split_fix_message line !! tag)).
Proof.
  split.
  - apply decode_fields_lookup_Some.
  - apply decode_fields_lookup_is_Some.
Qed.

Lemma split_fix_message_entries_witness :
  tokenize (py "a=1|b=2=3|a=4")
  = [py "a=1"; py "b=2=3"; py "a=4"]
  ∧ (py "b" ++ EQUALS :: py "2=3" ∈ tokenize (py "a=1|b=2=3|a=4")
     ∧ (EQUALS ∉ py "b"))
  ∧ is_Some (split_fix_message (py "a=1|b=2=3|a=4") !! py "a").
Proof.
  split; [by vm_compute|]. split.
  - apply (proj1 (split_fix_message_entries _ (py "b") (py "2=3"))).
    by vm_compute.
  - apply (proj2 (split_fix_message_entries _ (py "a") (py "1")));
      by_evaluation.
Defined.

(** ** Writing fields and reading them back *)

Lemma split_by_app_sep (p : N → bool) (tok rest : str) (sep : N) :
  Forall (λ c, p c = false) tok → p sep = true →
  Py.split_by p (tok ++ sep :: rest) = tok :: Py.split_by p rest.
Proof.
  intros Htok Hsep. induction Htok as [|c tok Hc _ IH]; simpl.
  - by rw Hsep.
  - by rw Hc IH.
Qed.

Lemma encode_fields_cons (sep : N) (f : str * str) (fields : list (str * str)) :
  encode_fields sep (f :: fields)
  = (f.1 ++ EQUALS :: f.2) ++ sep :: encode_fields sep fields.
Proof. rw /encode_fields /=. by rw -!app_assoc /= -!app_assoc. Qed.

Lemma encode_fields_snoc (sep : N) (fields : list (str * str)) (f : str * str) :
  encode_fields sep (fields ++ [f])
  = (encode_fields sep fields ++ f.1 ++ EQUALS :: f.2) ++ [sep].
Proof.
  rw /encode_fields fmap_app concat_app /= app_nil_r.
  by rw -?app_assoc /= -?app_assoc.
Qed.

Lemma split_by_encode_fields (p : N → bool) (sep : N) (fields : list (str * str)) :
  p sep = true →
  Forall (λ f, Forall (λ c, p c = false) (f.1 ++ EQUALS :: f.2)) fields →
  Py.split_by p (encode_fields sep fields)
  = ((λ f, f.1 ++ EQUALS :: f.2) <$> fields) ++ [[]].
Proof.
  intros Hsep. induction 1 as [|f fields Hf _ IH]; [done|].
  by rw encode_fields_cons split_by_app_sep // IH.
Qed.

Lemma decode_fields_written (fields : list (str * str)) :
  Forall (λ f, EQUALS ∉ f.1) fields →
  decode_fields ((λ f, f.1 ++ EQUALS :: f.2) <$> fields) = fields_map fields.
Proof.
  rw /fields_map.
  induction fields as [|[tag value] fields IH] using rev_ind; [done|].
  intros [Hfields Hf]%Forall_app. inversion Hf; subst.
  rw fmap_app decode_fields_snoc /= decode_part_pair; [done|].
  by rw reverse_app /= IH.
Qed.

Lemma strip_unchanged (s : str) (c : N) :
  no_leading_space (s ++ [c]) → Py.isspace c = false →
  Py.strip (s ++ [c]) = s ++ [c].
Proof.
  rw /no_leading_space /Py.strip. intros -> Hc.
  by rw /Py.rstrip_with reverse_app /= Hc -reverse_snoc reverse_involutive.
Qed.

Lemma elem_of_encode_fields (c sep : N) (fields : list (str * str)) :
  c ∈ encode_fields sep fields →
  c = sep ∨ c = EQUALS ∨ ∃ f, f ∈ fields ∧ (c ∈ f.1 ∨ c ∈ f.2).
Proof.
  induction fields as [|f fields IH]; [by intros ?%elem_of_nil|].
  rw encode_fields_cons.
  intros [[Hc|[->|Hc]%elem_of_cons]%elem_of_app|[->|Hc]%elem_of_cons]%elem_of_app.
  - right. right. exists f. split; [by left|by left].
  - by right; left.
  - right. right. exists f. split; [by left|by right].
  - by left.
  - destruct (IH Hc) as [->|[->|(g & Hg & Hcg)]]; [by left|by right; left|].
    right. right. exists g. split; [by right|done].
Qed.

Lemma not_elem_of_Forall_eqb (sep : N) (s : str) :
  sep ∉ s → Forall (λ c, N.eqb sep c = false) s.
Proof.
  intros Hsep. apply Forall_forall. intros c Hc.
  apply N.eqb_neq. by intros <-.
Qed.

Lemma sep_elem_of_encode_fields (sep : N) (fields : list (str * str)) :
  fields ≠ [] → sep ∈ encode_fields sep fields.
Proof.
  destruct fields as [|f fields]; [done|]. intros _.
  rw encode_fields_cons. apply elem_of_app. right. by left.
Qed.

(** The round trip for a line whose fields are closed by [sep], once
    [sep] is what [split_fix_message] detects in it. *)
Lemma split_fix_message_encode_fields (sep : N) (fields : list (str * str)) :
  Py.isspace sep = false → sep ≠ EQUALS →
  (fields ≠ [] → detect_separator SOH_CHARS (encode_fields sep fields) = Some sep) →
  Forall (λ f, (EQUALS ∉ f.1) ∧ (sep ∉ f.1) ∧ (sep ∉ f.2)) fields →
  no_leading_space (encode_fields sep fields) →
  split_fix_message (encode_fields sep fields) = fields_map fields.
Proof.
  intros Hsep Hne Hdetect Hfields Hlead.
  destruct fields as [|f0 fields0] using rev_ind; [by vm_compute|]. clear IHfields0.
  rw /split_fix_message /tokenize Hdetect; [by destruct fields0|].
  rw {1}encode_fields_snoc strip_unchanged; [by rw -encode_fields_snoc|done|].
  rw -encode_fields_snoc /Py.split split_by_encode_fields.
  - apply N.eqb_refl.
  - eapply Forall_impl; [exact Hfields|]. intros f (_ & H1 & H2).
    apply not_elem_of_Forall_eqb.
    intros [?|[?|?]%elem_of_cons]%elem_of_app; done.
  - rw decode_fields_snoc decode_part_no_equals; [apply not_elem_of_nil|].
    apply decode_fields_written.
    eapply Forall_impl; [exact Hfields|]. by intros f (? & _).
Qed.

(** X4: a line written as [tag=value] fields, each closed by U+0001, is
    read back as those fields, a later one replacing an earlier one with
    the same tag, when no tag holds '=' or U+0001, no value holds U+0001
    (values may hold '=', '|' and blanks) and the line does not start with
    whitespace; the same with '|' in place of U+0001 for fields that hold
    neither. *)
Theorem fields_round_trip (fields : list (str * str)) :
  Forall (λ f, (EQUALS ∉ f.1) ∧ (SOH ∉ f.1) ∧ (SOH ∉ f.2)) fields →
  (no_leading_space (encode_fields SOH fields) →
   split_fix_message (encode_fields SOH fields) = fields_map fields)
  ∧ (Forall (λ f, (PIPE ∉ f.1) ∧ (PIPE ∉ f.2)) fields →
     no_leading_space (encode_fields PIPE fields) →
     split_fix_message (encode_fields PIPE fields) = fields_map fields).
Proof.
  intros Hfields. split.
  - intros Hlead. apply split_fix_message_encode_fields; [done|done| |done..].
    intros Hne. by apply detect_separator_soh, sep_elem_of_encode_fields.
  - intros Hpipe Hlead.
    apply split_fix_message_encode_fields; [done|done| | |done].
    + intros Hne. apply detect_separator_pipe;
        [|by apply sep_elem_of_encode_fields].
      intros [?|[?|(f & Hf & Hin)]]%elem_of_encode_fields; [done..|].
      rewrite -> Forall_forall in Hfields.
      destruct (Hfields f Hf) as (_ & ? & ?). tauto.
    + rewrite -> Forall_forall in Hfields, Hpipe. apply Forall_forall.
      intros f Hf. destruct (Hfields f Hf) as (? & _).
      destruct (Hpipe f Hf) as (? & ?). done.
Qed.

Lemma fields_round_trip_witness :
  split_fix_message
    (encode_fields SOH [(py "58", py "a|b = c"); (py "11", py "A1"); (py "58", py "z")])
  = fields_map [(py "58", py "a|b = c"); (py "11", py "A1"); (py "58", py "z")]
  ∧ split_fix_message (encode_fields PIPE [(py "35", py "D"); (py "11", py "A1")])
    = fields_map [(py "35", py "D"); (py "11", py "A1")].
Proof.
  split.
  - apply (fields_round_trip
             [(py "58", py "a|b = c"); (py "11", py "A1"); (py "58", py "z")]);
      [by_evaluation|by vm_compute].
  - apply (fields_round_trip [(py "35", py "D"); (py "11", py "A1")]);
      [by_evaluation|by_evaluation|by vm_compute].
Defined.

Lemma filter_all {A} (P : A → Prop) `{!∀ x, Decision (P x)} (l : list A) :
  Forall P l → filter P l = l.
Proof.
  induction 1 as [|x l Hx _ IH]; [done|]. by rw filter_cons_True // IH.
Qed.

(** X5: a line written as [tag=value] fields, each followed by one
    whitespace character, is read back as those fields (a later one
    replacing an earlier one with the same tag) when tags and values hold
    no whitespace, U+0001 or '|' and tags hold no '='. *)
Theorem fields_round_trip_whitespace (ws : N) (fields : list (str * str)) :
  Py.isspace ws = true →
  Forall (λ f, (EQUALS ∉ f.1)
               ∧ Forall (λ c, Py.isspace c = false ∧ c ≠ SOH ∧ c ≠ PIPE)
                        (f.1 ++ f.2)) fields →
  split_fix_message (encode_fields ws fields) = fields_map fields.
Proof.
  intros Hws Hfields. rewrite -> Forall_forall in Hfields.
  assert (Hfree : ∀ c, Py.isspace c = false → (c = SOH ∨ c = PIPE) →
                       c ∉ encode_fields ws fields).
  { intros c Hc Hsep [->|[->|(f & Hf & Hin)]]%elem_of_encode_fields.
    - congruence.
    - by destruct Hsep.
    - destruct (Hfields f Hf) as (_ & Hchars).
      rewrite -> Forall_forall in Hchars.
      destruct (Hchars c) as (_ & ? & ?); [|by destruct Hsep].
      apply elem_of_app. tauto. }
  rw /split_fix_message tokenize_whitespace; [by apply Hfree; [|left]|by apply Hfree; [|right]|].
  rw /Py.split_whitespace split_by_encode_fields; [done| |].
  - apply Forall_forall. intros f Hf. destruct (Hfields f Hf) as (_ & Hchars).
    apply Forall_app in Hchars as [H1 H2]. apply Forall_app. split.
    + eapply Forall_impl; [exact H1|]. by intros c (? & _).
    + constructor; [done|]. eapply Forall_impl; [exact H2|]. by intros c (? & _).
  - rw filter_app filter_all.
    + apply Forall_forall. intros t (f & -> & _)%list_elem_of_fmap.
      by destruct (f.1).
    + rw filter_cons_False; [by intros H|]. rw filter_nil app_nil_r.
      apply decode_fields_written. apply Forall_forall.
      intros f Hf. by destruct (Hfields f Hf).
Qed.

Lemma fields_round_trip_whitespace_witness :
  split_fix_message (encode_fields SPACE [(py "35", py "D"); (py "11", py "A=1")])
  = fields_map [(py "35", py "D"); (py "11", py "A=1")].
Proof.
  apply fields_round_trip_whitespace; [done|]. by_evaluation.
Defined.

(** ** The rows of the output *)

Lemma run_app (st : state) (lines1 lines2 : list str) :
  run st (lines1 ++ lines2) = run (run st lines1) lines2.
Proof. by rw /run foldl_app. Qed.

Lemma written_process_message_cases (st : state) (message : gmap str str) :
  written (process_message st message) = written st
  ∨ ∃ k order, qualifying message
      ∧ written (process_message st message)
        = written st ++ [fill_row k order message].
Proof.
  destruct (decide (qualifying message)) as [Hq|Hq];
    [|by left; apply written_process_message_unqualified].
  destruct (message !! py "11") as [k|] eqn:Hk;
    [|by left; rw process_message_no_identifier; [left|]].
  destruct (decide (k = [])) as [->|Hne];
    [by left; rw process_message_no_identifier; [right|]|].
  rw (process_message_execution _ _ k); [done|].
  destruct (orders st !! k) as [order|]; [|by left].
  case_bool_decide; [by left|]. right. by exists k, order.
Qed.

(** X6: every row of the output has nine cells, the header and each data
    row alike, whatever the lines hold or lack. *)
Theorem rows_have_nine_cells (input_file : list str) :
  Forall (λ row, length row = 9) (process_fix_file input_file).
Proof.
  rw /process_fix_file.
  induction input_file as [|raw_line seen IH] using rev_ind.
  - by repeat constructor.
  - rw run_snoc process_line_message.
    destruct (written_process_message_cases (run start seen) (message_of raw_line))
      as [->|(k & order & _ & ->)]; [done|].
    apply Forall_app. split; [done|]. by repeat constructor.
Qed.

(** X7: the output has the header and at most one more row for each line
    that decodes to a qualifying execution report. *)
Theorem rows_bounded_by_executions (input_file : list str) :
  1 ≤ length (process_fix_file input_file)
  ∧ length (process_fix_file input_file)
    ≤ 1 + length (filter (λ raw_line, qualifying (message_of raw_line))
                         input_file).
Proof.
  rw /process_fix_file.
  induction input_file as [|raw_line seen [IH1 IH2]] using rev_ind.
  - by vm_compute.
  - rw run_snoc process_line_message filter_app !length_app.
    destruct (written_process_message_cases (run start seen) (message_of raw_line))
      as [->|(k & order & Hq & ->)]; [lia|].
    rw length_app filter_cons_True; [done|]. simpl. lia.
Qed.

(** X8: reading further lines only appends rows: the output for a prefix
    of the stream is a prefix of the output for the stream. *)
Theorem output_grows_by_appending (lines1 lines2 : list str) :
  process_fix_file lines1 `prefix_of` process_fix_file (lines1 ++ lines2).
Proof.
  rw /process_fix_file run_app. generalize (run start lines1). intros st.
  induction lines2 as [|raw_line lines2 IH] using rev_ind; [done|].
  rw run_snoc process_line_message. etrans; [exact IH|].
  destruct (written_process_message_cases (run st lines2) (message_of raw_line))
    as [->|(k & order & _ & ->)]; [done|]. by apply prefix_app_r.
Qed.

(** ** Lines without effect *)

Lemma process_line_inert (st : state) (raw_line : str) :
  inert raw_line → process_line st raw_line = st.
Proof.
  intros [Hnew Hexec]. rw process_line_message.
  destruct (message_of raw_line !! py "11") as [k|] eqn:Hk;
    [|by rw process_message_no_identifier; [left|]].
  destruct (decide (k = [])) as [->|Hne];
    [by rw process_message_no_identifier; [right|]|].
  rw /process_message.
  destruct (message_of raw_line !! py "35") as [msg_type|] eqn:Ht; [|done].
  case_bool_decide as HD; [subst msg_type; by destruct (Hnew k)|].
  case_bool_decide as H8; [subst msg_type|done].
  destruct (decide (qualifying (message_of raw_line))) as [Hq|Hq];
    [by destruct (Hexec k)|].
  rw /execution_report.
  destruct (decide (message_of raw_line !! py "150" = Some (py "2"))) as [H150|H150];
    [|by rw (bool_decide_eq_true_2 _ H150)].
  destruct (decide (message_of raw_line !! py "39" = Some (py "2"))) as [H39|H39];
    [|by rw (bool_decide_eq_true_2 _ H39) orb_true_r].
  destruct (decide (message_of raw_line !! py "40" = Some (py "2"))) as [H40|H40];
    [|by rw (bool_decide_eq_true_2 _ H40) orb_true_r].
  by destruct Hq.
Qed.

(** X9: a line whose message type is neither 'D' nor '8' (a blank line, a
    line of whitespace, a heartbeat, text without [tag=value]) has no use,
    and a line that has no use can be taken out of the stream anywhere
    without changing the output; so can a new order or a qualifying
    execution report without an identifier, and an execution report that
    does not qualify. *)
Theorem inert_lines_ignored :
  (∀ raw_line,
     message_of raw_line !! py "35" ≠ Some (py "D") →
     message_of raw_line !! py "35" ≠ Some (py "8") → inert raw_line)
  ∧ (∀ before raw_line after, inert raw_line →
       process_fix_file (before ++ raw_line :: after)
       = process_fix_file (before ++ after)).
Proof.
  split.
  - intros raw_line HD H8. split; intros k.
    + by intros (? & _).
    + by intros ((? & _) & _).
  - intros before raw_line after Hinert.
    rw /process_fix_file !run_app /=. by rw process_line_inert.
Qed.

Lemma inert_lines_ignored_witness :
  process_fix_file ([sample_order] ++ py "35=0|112=ping|" :: [sample_fill])
  = process_fix_file ([sample_order] ++ [sample_fill])
  ∧ process_fix_file ([sample_order] ++ [NEWLINE] :: [sample_fill])
    = process_fix_file ([sample_order] ++ [sample_fill]).
Proof.
  destruct inert_lines_ignored as [Hother Hdrop].
  split; apply Hdrop; apply Hother; by vm_compute.
Defined.

(** ** The dictionary of orders *)

Lemma dom_order_fields (k : str) (message : gmap str str) :
  dom (order_fields k message) = order_keys.
Proof. rw /order_fields /order_keys !dom_insert_L dom_empty_L. set_solver. Qed.

Lemma lookup_order_fields_id (k : str) (message : gmap str str) :
  order_fields k message !! py "11" = Some k.
Proof. apply lookup_insert_eq. Qed.

(** X10: whatever the stream, an order in the dictionary sits under a
    non-empty identifier, has exactly the six keys 11, 60, 55, 54, 38 and
    44, and holds its own identifier under 11; so it is never an empty
    dictionary, and the test [if not order] only ever sees a missing
    one. *)
Theorem stored_orders_well_formed (input_file : list str) (k : str)
    (order : gmap str str) :
  orders (run start input_file) !! k = Some order →
  k ≠ [] ∧ dom order = order_keys ∧ order !! py "11" = Some k ∧ order ≠ ∅.
Proof.
  rw orders_run.
  intros (j & raw_line & _ & (_ & _ & Hne) & ->)%spec_pending_origin.
  split_and!; [done|apply dom_order_fields|apply lookup_order_fields_id|].
  apply order_fields_not_empty.
Qed.

Lemma stored_orders_well_formed_witness :
  py "A1" ≠ []
  ∧ dom (order_fields (py "A1") (message_of sample_order)) = order_keys
  ∧ order_fields (py "A1") (message_of sample_order) !! py "11" = Some (py "A1")
  ∧ order_fields (py "A1") (message_of sample_order) ≠ ∅.
Proof.
  apply (stored_orders_well_formed [sample_order; sample_fill]).
  by vm_compute.
Defined.

Lemma spec_pending_is_Some (seen : list str) (k : str) :
  is_Some (spec_pending seen k) ↔
  ∃ raw_line, raw_line ∈ seen ∧ new_order_for k (message_of raw_line).
Proof.
  split.
  - intros [order (j & raw_line & Hj & Hnew & _)%spec_pending_origin].
    exists raw_line. split; [|done]. by eapply list_elem_of_lookup_2.
  - intros (raw_line & Hin & Hnew). rw /spec_pending.
    apply fmap_is_Some, last_is_Some. intros Hnil.
    eapply (filter_nil_not_elem_of _ _ (message_of raw_line)); [exact Hnil|done|].
    apply list_elem_of_fmap. by exists raw_line.
Qed.

(** X11: the identifiers in the dictionary are those of the new-order
    lines read so far; nothing is ever taken out of it, so an identifier
    once stored stays stored for the rest of the stream. *)
Theorem stored_identifiers (lines1 lines2 : list str) (k : str) :
  (is_Some (orders (run start lines1) !! k) ↔
   ∃ raw_line, raw_line ∈ lines1 ∧ new_order_for k (message_of raw_line))
  ∧ (is_Some (orders (run start lines1) !! k) →
     is_Some (orders (run start (lines1 ++ lines2)) !! k)).
Proof.
  rw !orders_run. split; [apply spec_pending_is_Some|].
  intros (raw_line & Hin & Hnew)%spec_pending_is_Some.
  apply spec_pending_is_Some. exists raw_line. split; [|done].
  apply elem_of_app. by left.
Qed.

Lemma stored_identifiers_witness :
  is_Some (orders (run start ([sample_order] ++ [sample_fill; sample_fill]))
             !! py "A1").
Proof.
  apply (proj2 (stored_identifiers [sample_order] [sample_fill; sample_fill]
                  (py "A1"))).
  vm_compute. by eexists.
Defined.

(** ** Orders and their fills *)

Lemma spec_pending_none (seen : list str) (k : str) :
  Forall (λ raw_line, ¬ new_order_for k (message_of raw_line)) seen →
  spec_pending seen k = None.
Proof. intros Hseen. exact (spec_pending_app_other [] seen k Hseen). Qed.

(** X12: a new order followed by a qualifying execution report with the
    same identifier gives the header and one row: the identifier, the
    timestamp of the order, the timestamp of the execution report, the
    symbol, side, quantity and limit price of the order (where it has
    none, of the execution report), the average price and the last market
    of the execution report. *)
Theorem order_then_fill (d e k : str) :
  new_order_for k (message_of d) →
  execution_for k (message_of e) →
  process_fix_file [d; e]
  = [ csv_header;
      [ k;
        Py.get_or_empty (message_of d) (py "60");
        Py.get_or_empty (message_of e) (py "60");
        Py.or_else (Py.get_or_empty (message_of d) (py "55"))
                   (Py.get_or_empty (message_of e) (py "55"));
        Py.or_else (Py.get_or_empty (message_of d) (py "54"))
                   (Py.get_or_empty (message_of e) (py "54"));
        Py.or_else (Py.get_or_empty (message_of d) (py "38"))
                   (Py.get_or_empty (message_of e) (py "38"));
        Py.or_else (Py.get_or_empty (message_of d) (py "44"))
                   (Py.get_or_empty (message_of e) (py "44"));
        Py.get_or_empty (message_of e) (py "6");
        Py.get_or_empty (message_of e) (py "30") ] ].
Proof.
  intros Hd He. rw /process_fix_file /run /= !process_line_message.
  rw (process_message_new_order _ _ k Hd).
  rw (process_message_execution _ _ k He) /= lookup_insert_eq.
  rw bool_decide_eq_false_2; [apply order_fields_not_empty|].
  by rw /writerow /= fill_row_order_fields.
Qed.

Lemma order_then_fill_witness :
  process_fix_file [sample_order; sample_fill] = [csv_header; sample_row].
Proof.
  apply (order_then_fill sample_order sample_fill (py "A1")); by vm_compute.
Defined.

(** X13: there is no looking ahead or back: a qualifying execution report
    that comes before every new order with its identifier is lost, and the
    output is the one of the stream without it, even when the order comes
    later. *)
Theorem fill_before_order_is_lost (before after : list str) (e k : str) :
  execution_for k (message_of e) →
  Forall (λ raw_line, ¬ new_order_for k (message_of raw_line)) before →
  process_fix_file (before ++ e :: after) = process_fix_file (before ++ after).
Proof.
  intros He Hbefore. rw /process_fix_file !run_app /=.
  rw process_line_message (process_message_execution _ _ k He).
  by rw orders_run spec_pending_none.
Qed.

Lemma fill_before_order_is_lost_witness :
  process_fix_file ([] ++ sample_fill :: [sample_order])
  = process_fix_file ([] ++ [sample_order])
  ∧ process_fix_file [sample_fill; sample_order] = [csv_header].
Proof.
  split; [|by vm_compute].
  apply (fill_before_order_is_lost [] [sample_order] sample_fill (py "A1"));
    [by vm_compute|constructor].
Defined.

Lemma run_messages (st : state) (input_file : list str) :
  run st input_file = foldl process_message st (message_of <$> input_file).
Proof.
  revert st. induction input_file as [|raw_line input_file IH]; intros st;
    [done|].
  by rw /= -IH process_line_message.
Qed.

(** X14: the output depends on the lines only through the messages they
    decode to: two streams whose lines decode alike, whatever separator
    and whatever spacing each line uses, give the same output. *)
Theorem output_depends_on_messages (input1 input2 : list str) :
  message_of <$> input1 = message_of <$> input2 →
  process_fix_file input1 = process_fix_file input2.
Proof. intros Hsame. by rw /process_fix_file !run_messages Hsame. Qed.

Lemma output_depends_on_messages_witness :
  process_fix_file [py "35=D|11=A1|55=XYZ|"; py " 35=8 11=A1 150=2 39=2 40=2  6=10.4"]
  = process_fix_file [py "35=D 11=A1 55=XYZ"; py "35=8|11=A1|150=2|39=2|40=2|6=10.4"].
Proof. apply output_depends_on_messages. by vm_compute. Defined.

(** ** One identifier at a time *)

Lemma written_run_header (input_file : list str) :
  written (run start input_file) = csv_header :: data_rows input_file.
Proof.
  rw /data_rows /process_fix_file.
  induction input_file as [|raw_line seen IH] using rev_ind; [done|].
  by rw run_snoc written_process_line IH.
Qed.

Lemma data_rows_snoc (seen : list str) (raw_line : str) :
  data_rows (seen ++ [raw_line])
  = data_rows seen ++ option_list (spec_matched_fill seen raw_line).
Proof.
  rw {1}/data_rows /process_fix_file run_snoc written_process_line.
  by rw written_run_header.
Qed.

Lemma new_orders_filter_concerns (seen : list str) (k : str) :
  filter (new_order_for k) (message_of <$> filter (concerns k) seen)
  = filter (new_order_for k) (message_of <$> seen).
Proof.
  induction seen as [|raw_line seen IH]; [done|].
  destruct (decide (concerns k raw_line)) as [Hk|Hk].
  - rw filter_cons_True; [done|]. rw !fmap_cons.
    destruct (decide (new_order_for k (message_of raw_line))) as [Hnew|Hnew].
    + by rw !(filter_cons_True (new_order_for k)) // IH.
    + by rw !(filter_cons_False (new_order_for k)) // IH.
  - rw filter_cons_False; [done|]. rw fmap_cons.
    rw (filter_cons_False (new_order_for k)); [|done].
    intros (_ & Hid & _). by apply Hk.
Qed.

Lemma spec_pending_filter_concerns (seen : list str) (k : str) :
  spec_pending (filter (concerns k) seen) k = spec_pending seen k.
Proof. by rw /spec_pending new_orders_filter_concerns. Qed.

Lemma spec_matched_fill_concerns (seen : list str) (raw_line k : str) :
  concerns k raw_line →
  spec_matched_fill (filter (concerns k) seen) raw_line
  = spec_matched_fill seen raw_line.
Proof.
  intros Hk. rw /spec_matched_fill. case_bool_decide; [|done].
  rw /concerns in Hk. by rw Hk /= spec_pending_filter_concerns.
Qed.

Lemma spec_matched_fill_head (seen : list str) (raw_line : str) row :
  spec_matched_fill seen raw_line = Some row →
  ∃ k, head row = Some k ∧ concerns k raw_line.
Proof.
  intros (k & order & _ & Hk & _ & ->)%spec_matched_fill_Some. by exists k.
Qed.

(** X15: identifiers do not interfere: the data rows that start with the
    identifier [k] are, in the same order, the data rows of the stream
    reduced to the lines that carry [k] in field 11. *)
Theorem rows_of_one_identifier (input_file : list str) (k : str) :
  filter (λ row, head row = Some k) (data_rows input_file)
  = data_rows (filter (concerns k) input_file).
Proof.
  induction input_file as [|raw_line seen IH] using rev_ind; [done|].
  rw data_rows_snoc !filter_app IH.
  destruct (decide (concerns k raw_line)) as [Hk|Hk].
  - rw (filter_cons_True (concerns k)); [done|].
    rw filter_nil data_rows_snoc spec_matched_fill_concerns; [done|]. f_equal.
    destruct (spec_matched_fill seen raw_line) as [row|] eqn:Hrow; [|done].
    rw /= filter_cons_True; [|done].
    destruct (spec_matched_fill_head _ _ _ Hrow) as (k' & -> & Hk').
    rw /concerns in Hk, Hk'. congruence.
  - rw (filter_cons_False (concerns k)); [done|]. rw filter_nil !app_nil_r.
    destruct (spec_matched_fill seen raw_line) as [row|] eqn:Hrow;
      [|by rw /= app_nil_r].
    rw /= filter_cons_False; [|by rw app_nil_r].
    destruct (spec_matched_fill_head _ _ _ Hrow) as (k' & -> & Hk').
    intros [= ->]. by apply Hk.
Qed.

(** ** What a decoded field never holds *)

(** X16: a decoded tag never holds '='; when the line has a separator,
    neither a decoded tag nor a decoded value holds it; when it has none,
    neither holds whitespace. *)
Theorem decoded_fields_are_clean (line tag value : str) :
  split_fix_message line !! tag = Some value →
  (EQUALS ∉ tag)
  ∧ (∀ sep, detect_separator SOH_CHARS line = Some sep →
            (sep ∉ tag) ∧ (sep ∉ value))
  ∧ (detect_separator SOH_CHARS line = None →
     Forall (λ c, Py.isspace c = false) (tag ++ value)).
Proof.
  intros [Htoken Htag]%decode_fields_lookup_Some. split_and!; [done| |].
  - intros sep Hsep. destruct (tokenize_pieces line sep Hsep) as [_ Hfree].
    rewrite -> Forall_forall in Hfree. specialize (Hfree _ Htoken).
    split; intros Hin; apply Hfree; apply elem_of_app; [by left|].
    right. by right.
  - intros Hnone. pose proof (tokenize_runs line Hnone) as Hruns.
    rewrite -> Forall_forall in Hruns.
    destruct (Hruns _ Htoken) as [_ Hchars].
    apply Forall_app in Hchars as [H1 H2]. apply Forall_app. split; [done|].
    by inversion H2.
Qed.

Lemma decoded_fields_are_clean_witness :
  (EQUALS ∉ py "58")
  ∧ (∀ sep, detect_separator SOH_CHARS (py "58=a b=c|11=A1") = Some sep →
            (sep ∉ py "58") ∧ (sep ∉ py "a b=c"))
  ∧ (detect_separator SOH_CHARS (py "58=a b=c|11=A1") = None →
     Forall (λ c, Py.isspace c = false) (py "58" ++ py "a b=c")).
Proof.
  apply (decoded_fields_are_clean (py "58=a b=c|11=A1") (py "58") (py "a b=c")).
  by vm_compute.
Defined.
